(** * The Conan recipe of common_game_server (conanfile.py)

    The recipe is a Python class, [CommonGameServerConan], whose methods
    act on the recipe object [self] by calling Conan's API: they declare
    requirements, fill the CMake toolchain, drive CMake and describe the
    produced package.  The embedding keeps that shape: [self] is a record,
    a method is a computation of a small state monad over it, and every
    call into Conan is a primitive of that monad with the effect the call
    has on [self]. *)

From Stdlib Require Import Ascii String.
From stdpp Require Import gmap strings list.

Set Default Proof Using "Type".

(** ** The recipe object and the Conan calls the recipe makes *)

Module Conan.

(** Python values the recipe stores in dictionaries. *)
Inductive value : Type :=
| VBool (b : bool)
| VStr (s : string).

#[global] Instance value_eq_dec : EqDecision value.
Proof. solve_decision. Defined.

(** [self.options]: one value per declared option.  The recipe declares
    each of its options with the value list [[True, False]], so an option
    holds a boolean. *)
Record Options : Type := mkOptions {
  build_tests : bool;
  build_benchmarks : bool;
  build_services : bool
}.

(** A declared dependency: [self.requires(ref)] or
    [self.test_requires(ref)]. *)
Inductive ReqKind : Type := Regular | TestRequire.

Record Requirement : Type := mkRequirement {
  req_kind : ReqKind;
  req_ref : string
}.

#[global] Instance ReqKind_eq_dec : EqDecision ReqKind.
Proof. solve_decision. Defined.

#[global] Instance Requirement_eq_dec : EqDecision Requirement.
Proof. solve_decision. Defined.

(** The three methods of the [CMake] helper the recipe calls. *)
Inductive CMakeCall : Type := CMakeConfigure | CMakeBuild | CMakeTest.

#[global] Instance CMakeCall_eq_dec : EqDecision CMakeCall.
Proof. solve_decision. Defined.

(** What the generators write: the files of [CMakeDeps], and the
    toolchain file, which records the [variables] of the toolchain
    object at the time of [tc.generate()]. *)
Inductive Generated : Type :=
| CMakeDepsFiles
| ToolchainFile (vars : gmap string value).

(** [self.cpp_info] *)
Record CppInfo : Type := mkCppInfo {
  properties : gmap string value;
  includedirs : list string
}.

(** [self.folders], set by a layout function. *)
Inductive Layout : Type := NoLayout | CMakeLayout.

(** The recipe object.  Lists are in the order of the calls. *)
Record ConanFile : Type := mkConanFile {
  options : Options;
  dependencies : list Requirement;
  folders : Layout;
  generated : list Generated;
  cmake_calls : list CMakeCall;
  cpp_info : CppInfo
}.

(** A method body: a function of [self] that returns a result and the
    updated [self]. *)
Definition M (A : Type) : Type := ConanFile → A * ConanFile.

#[global] Instance M_ret : MRet M := λ A (x : A) self, (x, self).

#[global] Instance M_bind : MBind M := λ A B (f : A → M B) (m : M A) self,
  let '(x, self') := m self in f x self'.

Definition get : M ConanFile := λ self, (self, self).

Definition modify (f : ConanFile → ConanFile) : M () := λ self, ((), f self).

(** The state of [self] after the method has run. *)
Definition run {A : Type} (m : M A) (self : ConanFile) : ConanFile := (m self).2.

(** Python's [if cond: body] with no [else]. *)
Definition when (cond : bool) (body : M ()) : M () :=
  if cond then body else mret ().

(** [self.options.<name>] *)
Definition option_value (name : Options → bool) : M bool :=
  self ← get; mret (name (options self)).

Definition add_requirement (r : Requirement) (self : ConanFile) : ConanFile :=
  mkConanFile (options self) (dependencies self ++ [r]) (folders self)
              (generated self) (cmake_calls self) (cpp_info self).

(** [self.requires(ref)] *)
Definition requires (ref : string) : M () :=
  modify (add_requirement (mkRequirement Regular ref)).

(** [self.test_requires(ref)] *)
Definition test_requires (ref : string) : M () :=
  modify (add_requirement (mkRequirement TestRequire ref)).

(** [cmake_layout(self)] *)
Definition cmake_layout : M () :=
  modify (λ self, mkConanFile (options self) (dependencies self) CMakeLayout
                              (generated self) (cmake_calls self) (cpp_info self)).

Definition add_generated (g : Generated) (self : ConanFile) : ConanFile :=
  mkConanFile (options self) (dependencies self) (folders self)
              (generated self ++ [g]) (cmake_calls self) (cpp_info self).

(** [CMakeDeps(self)] and its [generate()] *)
Inductive CMakeDeps : Type := mkCMakeDeps.

Definition CMakeDeps_new : M CMakeDeps := mret mkCMakeDeps.

Definition CMakeDeps_generate (deps : CMakeDeps) : M () :=
  modify (add_generated CMakeDepsFiles).

(** [CMakeToolchain(self)]: a toolchain object whose [variables]
    dictionary starts empty; [tc.variables[k] = v]; [tc.generate()]. *)
Record CMakeToolchain : Type := mkCMakeToolchain {
  variables : gmap string value
}.

Definition CMakeToolchain_new : M CMakeToolchain := mret (mkCMakeToolchain ∅).

Definition set_variable (k : string) (v : value) (tc : CMakeToolchain) : CMakeToolchain :=
  mkCMakeToolchain (<[k := v]> (variables tc)).

Definition CMakeToolchain_generate (tc : CMakeToolchain) : M () :=
  modify (add_generated (ToolchainFile (variables tc))).

(** [CMake(self)] and its [configure()], [build()] and [test()] *)
Inductive CMake : Type := mkCMake.

Definition CMake_new : M CMake := mret mkCMake.

Definition add_cmake_call (k : CMakeCall) (self : ConanFile) : ConanFile :=
  mkConanFile (options self) (dependencies self) (folders self)
              (generated self) (cmake_calls self ++ [k]) (cpp_info self).

Definition CMake_configure (cmake : CMake) : M () := modify (add_cmake_call CMakeConfigure).
Definition CMake_build (cmake : CMake) : M () := modify (add_cmake_call CMakeBuild).
Definition CMake_test (cmake : CMake) : M () := modify (add_cmake_call CMakeTest).

Definition with_cpp_info (f : CppInfo → CppInfo) (self : ConanFile) : ConanFile :=
  mkConanFile (options self) (dependencies self) (folders self)
              (generated self) (cmake_calls self) (f (cpp_info self)).

(** [self.cpp_info.set_property(k, v)] *)
Definition set_property (k : string) (v : value) : M () :=
  modify (with_cpp_info (λ ci, mkCppInfo (<[k := v]> (properties ci)) (includedirs ci))).

(** [self.cpp_info.includedirs = dirs] *)
Definition set_includedirs (dirs : list string) : M () :=
  modify (with_cpp_info (λ ci, mkCppInfo (properties ci) dirs)).

(** A requirement reference is [name/version]: the text before the first
    slash and the text after it. *)
Fixpoint ref_name (ref : string) : string :=
  match ref with
  | EmptyString => EmptyString
  | String a rest => if Ascii.eqb a "/"%char then EmptyString else String a (ref_name rest)
  end.

Fixpoint ref_version (ref : string) : string :=
  match ref with
  | EmptyString => EmptyString
  | String a rest => if Ascii.eqb a "/"%char then rest else ref_version rest
  end.

End Conan.

(** ** class CommonGameServerConan(ConanFile) *)

Module CommonGameServerConan.
Import Conan.

Definition name : string := "common_game_server".
Definition version : string := "0.1.0".
Definition description : string :=
  "Unified Game Server Framework with ECS and Plugin Architecture".
Definition license : string := "BSD-3-Clause".
Definition settings : list string := ["os"; "compiler"; "build_type"; "arch"].

(** The dictionary literal [options]: entries in source order. *)
Definition options : gmap string (list value) :=
  <["build_services" := [VBool true; VBool false]]>
    (<["build_benchmarks" := [VBool true; VBool false]]>
       (<["build_tests" := [VBool true; VBool false]]> ∅)).

(** The dictionary literal [default_options]. *)
Definition default_options : gmap string value :=
  <["build_services" := VBool false]>
    (<["build_benchmarks" := VBool false]>
       (<["build_tests" := VBool true]> ∅)).

Definition requirements : M () :=
  requires "yaml-cpp/0.8.0".

Definition build_requirements : M () :=
  bt ← option_value build_tests;
  when bt (test_requires "gtest/1.15.0");;
  bb ← option_value build_benchmarks;
  when bb (test_requires "benchmark/1.9.1").

Definition layout : M () :=
  cmake_layout.

Definition generate : M () :=
  deps ← CMakeDeps_new;
  CMakeDeps_generate deps;;
  tc ← CMakeToolchain_new;
  bt ← option_value build_tests;
  let tc := set_variable "CGS_BUILD_TESTS" (VBool bt) tc in
  bb ← option_value build_benchmarks;
  let tc := set_variable "CGS_BUILD_BENCHMARKS" (VBool bb) tc in
  bs ← option_value build_services;
  let tc := set_variable "CGS_BUILD_SERVICES" (VBool bs) tc in
  CMakeToolchain_generate tc.

Definition build : M () :=
  cmake ← CMake_new;
  CMake_configure cmake;;
  CMake_build cmake;;
  bt ← option_value build_tests;
  when bt (CMake_test cmake).

Definition package_info : M () :=
  set_property "cmake_file_name" (VStr "cgs");;
  set_property "cmake_target_name" (VStr "cgs::cgs_core");;
  set_includedirs ["include"].

End CommonGameServerConan.

Import Conan.
Import CommonGameServerConan.

(** ** What one run of a method adds to the recipe object *)

(** The CMake calls made between [self] and [self']. *)
Definition new_cmake_calls (self self' : ConanFile) : list CMakeCall :=
  drop (length (cmake_calls self)) (cmake_calls self').

(** The requirements declared between [self] and [self']. *)
Definition new_dependencies (self self' : ConanFile) : list Requirement :=
  drop (length (dependencies self)) (dependencies self').

(** The files generated between [self] and [self']. *)
Definition new_generated (self self' : ConanFile) : list Generated :=
  drop (length (generated self)) (generated self').

(** The recipe object with its option values replaced. *)
Definition with_options (o : Options) (self : ConanFile) : ConanFile :=
  mkConanFile o (dependencies self) (folders self) (generated self)
              (cmake_calls self) (cpp_info self).

(** Everything a method can leave on the recipe object: all of it but the
    option values, which are the method's input. *)
Definition outputs (self : ConanFile)
  : list Requirement * Layout * list Generated * list CMakeCall * CppInfo :=
  (dependencies self, folders self, generated self, cmake_calls self, cpp_info self).

(** The option values as the dictionary Conan keeps them in. *)
Definition valuation (o : Options) : gmap string value :=
  <["build_services" := VBool (build_services o)]>
    (<["build_benchmarks" := VBool (build_benchmarks o)]>
       (<["build_tests" := VBool (build_tests o)]> ∅)).

(** A dictionary of option values that the declaration [decl] accepts: it
    gives a value to the declared options and to no other, and each value
    is in the list declared for its option. *)
Definition accepted (decl : gmap string (list value)) (m : gmap string value) : Prop :=
  dom m = dom decl ∧
  ∀ k v, m !! k = Some v → ∃ vs, decl !! k = Some vs ∧ v ∈ vs.

(** Two option valuations that differ at most in [build_services]. *)
Definition differ_only_in_build_services (o1 o2 : Options) : Prop :=
  build_tests o1 = build_tests o2 ∧ build_benchmarks o1 = build_benchmarks o2.

(** A generated file with the toolchain variable [CGS_BUILD_SERVICES]
    left out. *)
Definition without_services_variable (g : Generated) : Generated :=
  match g with
  | CMakeDepsFiles => CMakeDepsFiles
  | ToolchainFile vars => ToolchainFile (delete "CGS_BUILD_SERVICES" vars)
  end.

(** The value a generated file gives to the toolchain variable [k]. *)
Definition toolchain_variable (k : string) (g : Generated) : option value :=
  match g with
  | CMakeDepsFiles => None
  | ToolchainFile vars => vars !! k
  end.

(** A recipe object on which no method has run yet. *)
Definition blank (o : Options) : ConanFile :=
  mkConanFile o [] NoLayout [] [] (mkCppInfo ∅ []).

(** The names of the declared options. *)
Definition option_names : list string :=
  ["build_tests"; "build_benchmarks"; "build_services"].

(** The two test requirements of the recipe. *)
Definition gtest : Requirement := mkRequirement TestRequire "gtest/1.15.0".
Definition benchmark : Requirement := mkRequirement TestRequire "benchmark/1.9.1".

(** The names of the toolchain variables the recipe assigns. *)
Definition toolchain_variable_names : list string :=
  ["CGS_BUILD_TESTS"; "CGS_BUILD_BENCHMARKS"; "CGS_BUILD_SERVICES"].

(** The runtime requirement of the recipe. *)
Definition yaml_cpp : Requirement := mkRequirement Regular "yaml-cpp/0.8.0".


(** The methods of the recipe by name, as Conan calls them. *)
Inductive MethodName : Type :=
| Call_requirements
| Call_build_requirements
| Call_layout
| Call_generate
| Call_build
| Call_package_info.

#[global] Instance MethodName_eq_dec : EqDecision MethodName.
Proof. solve_decision. Defined.

Definition method (c : MethodName) : M () :=
  match c with
  | Call_requirements => requirements
  | Call_build_requirements => build_requirements
  | Call_layout => layout
  | Call_generate => generate
  | Call_build => build
  | Call_package_info => package_info
  end.

(** The recipe object after the methods [cs] have been called on it, one
    after the other. *)
Definition run_methods (cs : list MethodName) (self : ConanFile) : ConanFile :=
  foldl (λ s c, run (method c) s) self cs.

(** What one call of a method declares, invokes and writes, given the
    option values. *)
Definition declared (o : Options) (c : MethodName) : list Requirement :=
  match c with
  | Call_requirements => [yaml_cpp]
  | Call_build_requirements =>
      (if build_tests o then [gtest] else [])
        ++ (if build_benchmarks o then [benchmark] else [])
  | _ => []
  end.

Definition invoked (o : Options) (c : MethodName) : list CMakeCall :=
  match c with
  | Call_build =>
      [CMakeConfigure; CMakeBuild] ++ (if build_tests o then [CMakeTest] else [])
  | _ => []
  end.

(** The toolchain variables [generate()] assigns, given the option values. *)
Definition assigned_variables (o : Options) : gmap string value :=
  <["CGS_BUILD_SERVICES" := VBool (build_services o)]>
    (<["CGS_BUILD_BENCHMARKS" := VBool (build_benchmarks o)]>
       (<["CGS_BUILD_TESTS" := VBool (build_tests o)]> ∅)).

Definition written (o : Options) (c : MethodName) : list Generated :=
  match c with
  | Call_generate => [CMakeDepsFiles; ToolchainFile (assigned_variables o)]
  | _ => []
  end.

(** Unfolds a method body down to the record it returns. *)
Ltac run_method :=
  cbv [run mbind M_bind mret M_ret get modify when option_value
       requires test_requires cmake_layout
       CMakeDeps_new CMakeDeps_generate
       CMakeToolchain_new set_variable CMakeToolchain_generate variables
       CMake_new CMake_configure CMake_build CMake_test
       set_property set_includedirs
       add_requirement add_generated add_cmake_call with_cpp_info
       requirements build_requirements layout generate build package_info
       snd fst Conan.options dependencies folders generated cmake_calls cpp_info
       properties includedirs build_tests build_benchmarks build_services].

(** Decides a membership hypothesis [H : x ∈ [a; b; ...]] over an explicit
    list: one case per element that can be [x]. *)
Ltac explicit_elem_of H :=
  repeat (apply elem_of_cons in H as [H | H]; [try discriminate H |]);
  try (apply elem_of_nil in H; contradiction).

(** ** The state after each method, in closed form *)

Lemma build_run (self : ConanFile) :
  run build self =
  mkConanFile (Conan.options self) (dependencies self) (folders self) (generated self)
    (cmake_calls self ++ [CMakeConfigure; CMakeBuild]
       ++ (if build_tests (Conan.options self) then [CMakeTest] else []))
    (cpp_info self).
Proof.
  destruct self as [[bt bb bs] ds fo ge cs ci].
  destruct bt; run_method; by rewrite <- !app_assoc.
Qed.

Lemma requirements_run (self : ConanFile) :
  run requirements self =
  mkConanFile (Conan.options self)
    (dependencies self ++ [mkRequirement Regular "yaml-cpp/0.8.0"])
    (folders self) (generated self) (cmake_calls self) (cpp_info self).
Proof. reflexivity. Qed.

Lemma build_requirements_run (self : ConanFile) :
  run build_requirements self =
  mkConanFile (Conan.options self)
    (dependencies self
       ++ (if build_tests (Conan.options self)
           then [mkRequirement TestRequire "gtest/1.15.0"] else [])
       ++ (if build_benchmarks (Conan.options self)
           then [mkRequirement TestRequire "benchmark/1.9.1"] else []))
    (folders self) (generated self) (cmake_calls self) (cpp_info self).
Proof.
  destruct self as [[bt bb bs] ds fo ge cs ci].
  destruct bt, bb; run_method; rewrite <- ?app_assoc, ?app_nil_r; done.
Qed.

Lemma generate_run (self : ConanFile) :
  run generate self =
  mkConanFile (Conan.options self) (dependencies self) (folders self)
    (generated self
       ++ [CMakeDepsFiles;
           ToolchainFile
             (<["CGS_BUILD_SERVICES" := VBool (build_services (Conan.options self))]>
                (<["CGS_BUILD_BENCHMARKS" := VBool (build_benchmarks (Conan.options self))]>
                   (<["CGS_BUILD_TESTS" := VBool (build_tests (Conan.options self))]> ∅)))])
    (cmake_calls self) (cpp_info self).
Proof.
  destruct self as [[bt bb bs] ds fo ge cs ci].
  run_method. by rewrite <- app_assoc.
Qed.

Lemma package_info_run (self : ConanFile) :
  run package_info self =
  mkConanFile (Conan.options self) (dependencies self) (folders self)
    (generated self) (cmake_calls self)
    (mkCppInfo
       (<["cmake_target_name" := VStr "cgs::cgs_core"]>
          (<["cmake_file_name" := VStr "cgs"]> (properties (cpp_info self))))
       ["include"]).
Proof. reflexivity. Qed.

Lemma layout_run (self : ConanFile) :
  run layout self =
  mkConanFile (Conan.options self) (dependencies self) CMakeLayout
    (generated self) (cmake_calls self) (cpp_info self).
Proof. reflexivity. Qed.

(** Dropping the old entries of a list that only grew leaves the new ones. *)
Lemma drop_length_app {A : Type} (old new : list A) :
  drop (length old) (old ++ new) = new.
Proof. by rewrite drop_app_length. Qed.

(** ** The methods on a blank recipe object *)

Example build_default_options :
  cmake_calls (run build (blank (mkOptions true false false)))
  = [CMakeConfigure; CMakeBuild; CMakeTest].
Proof. reflexivity. Qed.

Example build_without_tests :
  cmake_calls (run build (blank (mkOptions false true true)))
  = [CMakeConfigure; CMakeBuild].
Proof. reflexivity. Qed.

Example build_requirements_all_on :
  dependencies (run build_requirements (blank (mkOptions true true true)))
  = [mkRequirement TestRequire "gtest/1.15.0";
     mkRequirement TestRequire "benchmark/1.9.1"].
Proof. reflexivity. Qed.

Example build_requirements_services_only :
  dependencies (run build_requirements (blank (mkOptions false false true))) = [].
Proof. reflexivity. Qed.

Example recipe_default_options :
  dependencies
    (run (requirements;; build_requirements) (blank (mkOptions true false false)))
  = [mkRequirement Regular "yaml-cpp/0.8.0";
     mkRequirement TestRequire "gtest/1.15.0"].
Proof. reflexivity. Qed.

Example generate_default_options :
  toolchain_variable "CGS_BUILD_SERVICES"
    <$> generated (run generate (blank (mkOptions true false false)))
  = [None; Some (VBool false)].
Proof. reflexivity. Qed.

Example layout_blank :
  folders (run layout (blank (mkOptions true false false))) = CMakeLayout.
Proof. reflexivity. Qed.

(** ** build() *)

(** C1. For every recipe object, whatever its three option values,
    [build()] calls [cmake.configure()] first and [cmake.build()] second;
    it calls [cmake.test()] exactly when [build_tests] is true, and then as
    its third call, after the build step; when [build_tests] is false the
    two calls are all it makes. *)
Theorem build_tests_iff_option (self : ConanFile) :
  cmake_calls (run build self)
    = cmake_calls self ++ new_cmake_calls self (run build self)
  ∧ new_cmake_calls self (run build self)
    = [CMakeConfigure; CMakeBuild]
        ++ (if build_tests (Conan.options self) then [CMakeTest] else [])
  ∧ new_cmake_calls self (run build self) !! 0 = Some CMakeConfigure
  ∧ new_cmake_calls self (run build self) !! 1 = Some CMakeBuild
  ∧ (CMakeTest ∈ new_cmake_calls self (run build self)
     ↔ build_tests (Conan.options self) = true)
  ∧ (∀ i, new_cmake_calls self (run build self) !! i = Some CMakeTest → i = 2)
  ∧ (build_tests (Conan.options self) = false
     ↔ new_cmake_calls self (run build self) = [CMakeConfigure; CMakeBuild]).
Proof.
  unfold new_cmake_calls. rewrite build_run. cbn [cmake_calls].
  rewrite drop_length_app.
  destruct (build_tests (Conan.options self)); cbn [app].
  - repeat split; try done.
    + intros _. repeat constructor.
    + intros [|[|[|i]]] Hi; by simplify_eq/=.
  - repeat split; try done.
    + intros Hin. explicit_elem_of Hin.
    + intros [|[|[|i]]] Hi; by simplify_eq/=.
Qed.

(** ** options and default_options *)

Lemma options_lookup (k : string) :
  options !! k =
  if bool_decide (k ∈ option_names) then Some [VBool true; VBool false] else None.
Proof.
  case_bool_decide as Hin.
  - explicit_elem_of Hin; by subst.
  - unfold options.
    rewrite !lookup_insert_ne; [done | intros <-; apply Hin; repeat constructor ..].
Qed.

Lemma option_names_other (k : string) :
  k ≠ "build_tests" → k ≠ "build_benchmarks" → k ≠ "build_services" →
  k ∉ option_names.
Proof. intros ? ? ? Hin. explicit_elem_of Hin; congruence. Qed.

Lemma default_options_lookup (k : string) :
  default_options !! k =
  if decide (k = "build_tests") then Some (VBool true)
  else if decide (k = "build_benchmarks") then Some (VBool false)
  else if decide (k = "build_services") then Some (VBool false)
  else None.
Proof.
  unfold default_options. rewrite !lookup_insert, lookup_empty.
  repeat case_decide; subst; done.
Qed.

Lemma valuation_lookup (o : Options) (k : string) :
  valuation o !! k =
  if decide (k = "build_tests") then Some (VBool (build_tests o))
  else if decide (k = "build_benchmarks") then Some (VBool (build_benchmarks o))
  else if decide (k = "build_services") then Some (VBool (build_services o))
  else None.
Proof.
  unfold valuation. rewrite !lookup_insert, lookup_empty.
  repeat case_decide; subst; done.
Qed.

Lemma boolean_values (v : value) :
  v ∈ [VBool true; VBool false] ↔ ∃ b : bool, v = VBool b.
Proof.
  split.
  - intros Hin. explicit_elem_of Hin; subst; eauto.
  - intros [[] ->]; repeat constructor.
Qed.

(** The dictionaries the declaration accepts are the valuations of the
    three boolean options, so [Options] has one inhabitant per value that
    [self.options] can take. *)
Lemma accepted_iff_valuation (m : gmap string value) :
  accepted options m ↔ ∃ o : Options, m = valuation o.
Proof.
  split.
  - intros [Hdom Hval].
    assert (Hbool : ∀ k, k ∈ option_names → ∃ b : bool, m !! k = Some (VBool b)).
    { intros k Hk.
      assert (is_Some (m !! k)) as [v Hv].
      { apply elem_of_dom. rewrite Hdom. apply elem_of_dom.
        rewrite options_lookup, bool_decide_eq_true_2; eauto. }
      destruct (Hval k v Hv) as (vs & Hvs & Hin).
      rewrite options_lookup, bool_decide_eq_true_2 in Hvs by done.
      injection Hvs as <-. apply boolean_values in Hin as [b ->]. eauto. }
    destruct (Hbool "build_tests") as [bt Hbt]; [repeat constructor |].
    destruct (Hbool "build_benchmarks") as [bb Hbb]; [repeat constructor |].
    destruct (Hbool "build_services") as [bs Hbs]; [repeat constructor |].
    exists (mkOptions bt bb bs). apply map_eq. intros k.
    rewrite valuation_lookup. cbn [build_tests build_benchmarks build_services].
    repeat case_decide; subst; try done.
    apply not_elem_of_dom. rewrite Hdom. apply not_elem_of_dom.
    by rewrite options_lookup, bool_decide_eq_false_2 by by apply option_names_other.
  - intros [o ->]. split.
    + apply set_eq. intros k. rewrite !elem_of_dom, valuation_lookup.
      repeat case_decide; subst; try (split; by eauto).
      rewrite options_lookup, bool_decide_eq_false_2 by by apply option_names_other.
      done.
    + intros k v. rewrite valuation_lookup.
      repeat case_decide; subst; try done;
        intros [= <-]; (eexists; split; [done |]); apply boolean_values; eauto.
Qed.

(** C2. The recipe declares exactly three options, [build_tests],
    [build_benchmarks] and [build_services]; the values declared for each
    are the booleans [True] and [False]; the defaults are [True] for
    [build_tests] and [False] for [build_benchmarks] and [build_services],
    and no other default is given. *)
Theorem three_boolean_options :
  size options = 3
  ∧ (∀ k : string, k ∈ dom options ↔ k ∈ option_names)
  ∧ (∀ (k : string) (v : value),
       (∃ vs, options !! k = Some vs ∧ v ∈ vs)
       ↔ k ∈ option_names ∧ ∃ b : bool, v = VBool b)
  ∧ options !! "build_tests" = Some [VBool true; VBool false]
  ∧ options !! "build_benchmarks" = Some [VBool true; VBool false]
  ∧ options !! "build_services" = Some [VBool true; VBool false]
  ∧ default_options !! "build_tests" = Some (VBool true)
  ∧ default_options !! "build_benchmarks" = Some (VBool false)
  ∧ default_options !! "build_services" = Some (VBool false)
  ∧ (∀ k : string, k ∈ dom default_options ↔ k ∈ option_names)
  ∧ default_options = valuation (mkOptions true false false)
  ∧ accepted options default_options.
Proof.
  assert (Hdom : ∀ k : string, k ∈ dom options ↔ k ∈ option_names).
  { intros k. rewrite elem_of_dom, options_lookup.
    case_bool_decide; split; intros H'; try done; eauto. }
  assert (Hdef : default_options = valuation (mkOptions true false false)) by done.
  split; [| split; [done | split]].
  - unfold options.
    rewrite !map_size_insert_None, map_size_empty; by rewrite ?lookup_insert_ne.
  - intros k v. rewrite options_lookup. case_bool_decide; split.
    + intros (vs & [= <-] & Hin). split; [done |]. by apply boolean_values.
    + intros [_ Hb]. eexists; split; [done |]. by apply boolean_values.
    + by intros (vs & ? & _).
    + by intros [? _].
  - assert (Hacc : accepted options default_options).
    { rewrite Hdef. apply accepted_iff_valuation. eauto. }
    repeat split; try done; try apply Hacc.
    + destruct Hacc as [-> _]. apply Hdom.
    + destruct Hacc as [-> _]. apply Hdom.
Qed.

(** ** requirements() and build_requirements() *)

(** C4. For every recipe object, whatever its three option values,
    [requirements()] declares one dependency and no other: the regular
    requirement [yaml-cpp/0.8.0], that is the package [yaml-cpp] at the
    version [0.8.0]; replacing the option values changes nothing of it. *)
Theorem requirements_yaml_cpp (self : ConanFile) :
  dependencies (run requirements self)
    = dependencies self ++ new_dependencies self (run requirements self)
  ∧ new_dependencies self (run requirements self)
    = [mkRequirement Regular "yaml-cpp/0.8.0"]
  ∧ ref_name "yaml-cpp/0.8.0" = "yaml-cpp"
  ∧ ref_version "yaml-cpp/0.8.0" = "0.8.0"
  ∧ (∀ o : Options,
       new_dependencies (with_options o self) (run requirements (with_options o self))
       = new_dependencies self (run requirements self))
  ∧ outputs (run requirements self)
    = (dependencies self ++ [mkRequirement Regular "yaml-cpp/0.8.0"],
       folders self, generated self, cmake_calls self, cpp_info self).
Proof.
  unfold new_dependencies. rewrite requirements_run. cbn [dependencies].
  rewrite drop_length_app. repeat split.
  intros o. rewrite requirements_run. cbn. apply drop_length_app.
Qed.

(** C3. For every recipe object, whatever its three option values,
    [build_requirements()] declares the test requirement [gtest/1.15.0]
    exactly when [build_tests] is true and the test requirement
    [benchmark/1.9.1] exactly when [build_benchmarks] is true, [gtest]
    first, and declares nothing else; the value of [build_services] has no
    part in it. *)
Theorem build_requirements_by_option (self : ConanFile) :
  dependencies (run build_requirements self)
    = dependencies self ++ new_dependencies self (run build_requirements self)
  ∧ new_dependencies self (run build_requirements self)
    = (if build_tests (Conan.options self) then [gtest] else [])
        ++ (if build_benchmarks (Conan.options self) then [benchmark] else [])
  ∧ (gtest ∈ new_dependencies self (run build_requirements self)
     ↔ build_tests (Conan.options self) = true)
  ∧ (benchmark ∈ new_dependencies self (run build_requirements self)
     ↔ build_benchmarks (Conan.options self) = true)
  ∧ (∀ r : Requirement,
       r ∈ new_dependencies self (run build_requirements self)
       ↔ r = gtest ∧ build_tests (Conan.options self) = true
         ∨ r = benchmark ∧ build_benchmarks (Conan.options self) = true)
  ∧ (∀ bs : bool,
       new_dependencies
         (with_options (mkOptions (build_tests (Conan.options self))
                                  (build_benchmarks (Conan.options self)) bs) self)
         (run build_requirements
            (with_options (mkOptions (build_tests (Conan.options self))
                                     (build_benchmarks (Conan.options self)) bs) self))
       = new_dependencies self (run build_requirements self)).
Proof.
  unfold new_dependencies. rewrite build_requirements_run. cbn [dependencies].
  rewrite drop_length_app. fold gtest benchmark.
  split; [done | split; [done |]].
  assert (Hall : ∀ r : Requirement,
    r ∈ (if build_tests (Conan.options self) then [gtest] else [])
          ++ (if build_benchmarks (Conan.options self) then [benchmark] else [])
    ↔ r = gtest ∧ build_tests (Conan.options self) = true
      ∨ r = benchmark ∧ build_benchmarks (Conan.options self) = true).
  { intros r. rewrite elem_of_app.
    destruct (build_tests (Conan.options self)),
             (build_benchmarks (Conan.options self));
      rewrite ?list_elem_of_singleton, ?elem_of_nil; intuition congruence. }
  split; [| split; [| split; [exact Hall |]]].
  - rewrite Hall. split; [intros [[_ Hbt] | [Hne _]]; [done | discriminate Hne] | auto].
  - rewrite Hall. split; [intros [[Hne _] | [_ Hbb]]; [discriminate Hne | done] | auto].
  - intros bs. rewrite build_requirements_run. cbn. apply drop_length_app.
Qed.

(** ** package_info() *)

(** C5. For every recipe object, whatever its three option values,
    [package_info()] leaves [cpp_info] with the single include directory
    [include], the property [cmake_file_name] set to [cgs] and the property
    [cmake_target_name] set to [cgs::cgs_core]; it touches no other
    property and nothing else of the recipe object, and replacing the
    option values changes nothing of the result. *)
Theorem package_info_include_and_target (self : ConanFile) :
  includedirs (cpp_info (run package_info self)) = ["include"]
  ∧ length (includedirs (cpp_info (run package_info self))) = 1
  ∧ properties (cpp_info (run package_info self)) !! "cmake_file_name"
    = Some (VStr "cgs")
  ∧ properties (cpp_info (run package_info self)) !! "cmake_target_name"
    = Some (VStr "cgs::cgs_core")
  ∧ (∀ k : string,
       properties (cpp_info (run package_info self)) !! k
       = if decide (k = "cmake_file_name") then Some (VStr "cgs")
         else if decide (k = "cmake_target_name") then Some (VStr "cgs::cgs_core")
         else properties (cpp_info self) !! k)
  ∧ (∀ o : Options,
       cpp_info (run package_info (with_options o self))
       = cpp_info (run package_info self))
  ∧ outputs (run package_info self)
    = (dependencies self, folders self, generated self, cmake_calls self,
       cpp_info (run package_info self)).
Proof.
  rewrite package_info_run. cbn [cpp_info includedirs properties].
  split; [done | split; [done |]].
  split; [by rewrite lookup_insert_ne, lookup_insert_eq |].
  split; [by rewrite lookup_insert_eq |].
  split; [| by split].
  intros k. rewrite !lookup_insert. repeat case_decide; by subst.
Qed.

(** ** generate() *)

(** C6. For every recipe object, whatever its three option values,
    [generate()] writes the files of [CMakeDeps] and then one toolchain
    file, and the variables of that toolchain file are exactly
    [CGS_BUILD_TESTS], [CGS_BUILD_BENCHMARKS] and [CGS_BUILD_SERVICES],
    each holding the boolean value of the option of the same name: a
    disabled option gives a variable with the value [False], not a missing
    variable. *)
Theorem generate_toolchain_variables (self : ConanFile) :
  ∃ vars : gmap string value,
    generated (run generate self)
      = generated self ++ new_generated self (run generate self)
    ∧ new_generated self (run generate self) = [CMakeDepsFiles; ToolchainFile vars]
    ∧ size vars = 3
    ∧ (∀ k : string, k ∈ dom vars ↔ k ∈ toolchain_variable_names)
    ∧ vars !! "CGS_BUILD_TESTS" = Some (VBool (build_tests (Conan.options self)))
    ∧ vars !! "CGS_BUILD_BENCHMARKS"
      = Some (VBool (build_benchmarks (Conan.options self)))
    ∧ vars !! "CGS_BUILD_SERVICES"
      = Some (VBool (build_services (Conan.options self)))
    ∧ outputs (run generate self)
      = (dependencies self, folders self,
         generated self ++ [CMakeDepsFiles; ToolchainFile vars],
         cmake_calls self, cpp_info self).
Proof.
  eexists. unfold new_generated. rewrite generate_run. cbn [generated].
  rewrite drop_length_app.
  split; [done | split; [done |]].
  split.
  { rewrite !map_size_insert_None, map_size_empty; by rewrite ?lookup_insert_ne. }
  split; [| by repeat split].
  intros k. rewrite elem_of_dom. unfold toolchain_variable_names. split.
  - intros [v Hv]. rewrite !lookup_insert in Hv.
    repeat case_decide; subst; by repeat constructor.
  - intros Hk. explicit_elem_of Hk; by subst.
Qed.

(** ** build_services *)

Lemma without_services_variable_generate (o : Options) (self : ConanFile) :
  without_services_variable <$> generated (run generate (with_options o self))
  = (without_services_variable <$> generated self)
      ++ [CMakeDepsFiles;
          ToolchainFile
            (<["CGS_BUILD_BENCHMARKS" := VBool (build_benchmarks o)]>
               (<["CGS_BUILD_TESTS" := VBool (build_tests o)]> ∅))].
Proof.
  rewrite generate_run. cbn [generated with_options Conan.options].
  rewrite fmap_app. cbn [fmap list_fmap without_services_variable].
  by rewrite delete_insert_eq, !delete_insert_ne, delete_empty.
Qed.

(** C7. Take any recipe object and any two valuations of the options that
    differ at most in [build_services].  Then [requirements()],
    [build_requirements()], [build()] and [package_info()] (and [layout()])
    leave the same requirements, layout, generated files, CMake calls and
    package description under both valuations.  [generate()] leaves the
    same of all these but the generated files, which are the same once the
    toolchain variable [CGS_BUILD_SERVICES] is left out, and are the same
    with it exactly when the two values of [build_services] are equal. *)
Theorem build_services_noninterference (self : ConanFile) (o1 o2 : Options) :
  differ_only_in_build_services o1 o2 →
  outputs (run requirements (with_options o1 self))
    = outputs (run requirements (with_options o2 self))
  ∧ outputs (run build_requirements (with_options o1 self))
    = outputs (run build_requirements (with_options o2 self))
  ∧ outputs (run build (with_options o1 self))
    = outputs (run build (with_options o2 self))
  ∧ outputs (run package_info (with_options o1 self))
    = outputs (run package_info (with_options o2 self))
  ∧ outputs (run layout (with_options o1 self))
    = outputs (run layout (with_options o2 self))
  ∧ dependencies (run generate (with_options o1 self))
    = dependencies (run generate (with_options o2 self))
  ∧ folders (run generate (with_options o1 self))
    = folders (run generate (with_options o2 self))
  ∧ cmake_calls (run generate (with_options o1 self))
    = cmake_calls (run generate (with_options o2 self))
  ∧ cpp_info (run generate (with_options o1 self))
    = cpp_info (run generate (with_options o2 self))
  ∧ without_services_variable <$> generated (run generate (with_options o1 self))
    = without_services_variable <$> generated (run generate (with_options o2 self))
  ∧ (generated (run generate (with_options o1 self))
     = generated (run generate (with_options o2 self))
     ↔ build_services o1 = build_services o2).
Proof.
  intros [Hbt Hbb].
  rewrite !without_services_variable_generate.
  rewrite !requirements_run, !build_requirements_run, !build_run,
    !package_info_run, !layout_run, !generate_run.
  unfold outputs.
  cbn [with_options Conan.options dependencies folders generated cmake_calls cpp_info].
  rewrite Hbt, Hbb.
  repeat (split; [done |]).
  split.
  - intros Heq. apply app_inv_head in Heq.
    apply (f_equal (λ gs, toolchain_variable "CGS_BUILD_SERVICES" <$> gs)) in Heq.
    cbn [fmap list_fmap toolchain_variable] in Heq.
    rewrite !lookup_insert_eq in Heq. congruence.
  - by intros ->.
Qed.

(** With the default options and with [build_services] switched on, the
    methods leave the same outputs. *)
Lemma default_services_switch :
  differ_only_in_build_services (mkOptions true false false) (mkOptions true false true)
  ∧ outputs (run build (with_options (mkOptions true false false)
                                     (blank (mkOptions true false false))))
    = outputs (run build (with_options (mkOptions true false true)
                                       (blank (mkOptions true false false))))
  ∧ cmake_calls (run build (with_options (mkOptions true false true)
                                         (blank (mkOptions true false false))))
    = [CMakeConfigure; CMakeBuild; CMakeTest]
  ∧ dependencies (run build_requirements
                    (with_options (mkOptions true false true)
                                  (blank (mkOptions true false false))))
    = [gtest].
Proof.
  split; [split; reflexivity |].
  destruct (build_services_noninterference
              (blank (mkOptions true false false))
              (mkOptions true false false) (mkOptions true false true)
              (conj eq_refl eq_refl))
    as (_ & Hreq & Hbuild & _).
  split; [exact Hbuild |].
  split; reflexivity.
Defined.


(** ** Sequences of method calls *)

(** One call: the option values stay, and each log grows by what the call
    declares, invokes and writes. *)
Lemma method_step (c : MethodName) (self : ConanFile) :
  Conan.options (run (method c) self) = Conan.options self
  ∧ dependencies (run (method c) self)
    = dependencies self ++ declared (Conan.options self) c
  ∧ cmake_calls (run (method c) self)
    = cmake_calls self ++ invoked (Conan.options self) c
  ∧ generated (run (method c) self)
    = generated self ++ written (Conan.options self) c.
Proof.
  destruct c; cbn [method declared invoked written];
    rewrite ?requirements_run, ?build_requirements_run, ?layout_run,
      ?generate_run, ?build_run, ?package_info_run;
    cbn [Conan.options dependencies cmake_calls generated];
    by rewrite ?app_nil_r.
Qed.

Lemma run_methods_cons (c : MethodName) (cs : list MethodName) (self : ConanFile) :
  run_methods (c :: cs) self = run_methods cs (run (method c) self).
Proof. reflexivity. Qed.

(** X1. Whatever methods of the recipe are called, in whatever order and
    however often, the option values of the recipe object stay as they
    were: no method assigns or removes an option. *)
Theorem options_unchanged_by_methods (cs : list MethodName) (self : ConanFile) :
  Conan.options (run_methods cs self) = Conan.options self
  ∧ Forall (λ c, Conan.options (run (method c) self) = Conan.options self) cs.
Proof.
  split.
  - revert self. induction cs as [| c cs IH]; intros self; [done |].
    rewrite run_methods_cons, IH. apply method_step.
  - apply Forall_forall. intros c _. apply method_step.
Qed.

Lemma run_methods_logs (cs : list MethodName) (self : ConanFile) :
  dependencies (run_methods cs self)
    = dependencies self ++ mjoin (declared (Conan.options self) <$> cs)
  ∧ cmake_calls (run_methods cs self)
    = cmake_calls self ++ mjoin (invoked (Conan.options self) <$> cs)
  ∧ generated (run_methods cs self)
    = generated self ++ mjoin (written (Conan.options self) <$> cs).
Proof.
  revert self. induction cs as [| c cs IH]; intros self.
  - cbn. by rewrite !app_nil_r.
  - rewrite run_methods_cons.
    destruct (IH (run (method c) self)) as (-> & -> & ->).
    destruct (method_step c self) as (-> & -> & -> & ->).
    cbn [fmap list_fmap mjoin list_join]. by rewrite !app_assoc.
Qed.

Lemma new_logs (cs : list MethodName) (self : ConanFile) :
  new_dependencies self (run_methods cs self)
    = mjoin (declared (Conan.options self) <$> cs)
  ∧ new_cmake_calls self (run_methods cs self)
    = mjoin (invoked (Conan.options self) <$> cs)
  ∧ new_generated self (run_methods cs self)
    = mjoin (written (Conan.options self) <$> cs).
Proof.
  unfold new_dependencies, new_cmake_calls, new_generated.
  destruct (run_methods_logs cs self) as (-> & -> & ->).
  by rewrite !drop_length_app.
Qed.


(** ** The package description and the layout under repeated calls *)

Lemma package_info_settles (self self' : ConanFile) :
  cpp_info self' = cpp_info self ∨ cpp_info self' = cpp_info (run package_info self) →
  cpp_info (run package_info self') = cpp_info (run package_info self).
Proof.
  rewrite !package_info_run. cbn [cpp_info].
  intros [-> | ->]; [done |]. cbn [properties]. f_equal.
  apply map_eq. intros k. rewrite !lookup_insert. by repeat case_decide.
Qed.

Lemma method_step_cpp_info (c : MethodName) (self : ConanFile) :
  cpp_info (run (method c) self)
  = if decide (c = Call_package_info) then cpp_info (run package_info self)
    else cpp_info self.
Proof.
  destruct c; cbn [method]; case_decide; try done;
    by rewrite ?requirements_run, ?build_requirements_run, ?layout_run,
      ?generate_run, ?build_run.
Qed.

Lemma method_step_folders (c : MethodName) (self : ConanFile) :
  folders (run (method c) self)
  = if decide (c = Call_layout) then CMakeLayout else folders self.
Proof.
  destruct c; cbn [method]; case_decide; try done;
    by rewrite ?requirements_run, ?build_requirements_run,
      ?generate_run, ?build_run, ?package_info_run.
Qed.

(** X3. However often and in whatever order the methods are called, the
    package description is the one a single [package_info()] call gives
    when [package_info()] is among the calls, and is untouched otherwise:
    [package_info()] assigns, it does not accumulate.  In particular a
    second [package_info()] call changes nothing. *)
Theorem package_description_settled (cs : list MethodName) (self : ConanFile) :
  cpp_info (run_methods cs self)
    = (if bool_decide (Call_package_info ∈ cs)
       then cpp_info (run package_info self) else cpp_info self)
  ∧ run package_info (run package_info self) = run package_info self.
Proof.
  split.
  - assert (Hgen : ∀ self' : ConanFile,
      cpp_info self' = cpp_info self ∨ cpp_info self' = cpp_info (run package_info self) →
      cpp_info (run_methods cs self')
      = if bool_decide (Call_package_info ∈ cs)
        then cpp_info (run package_info self) else cpp_info self').
    { induction cs as [| c cs IH]; intros self' Hself'; [done |].
      rewrite run_methods_cons, IH.
      - rewrite method_step_cpp_info.
        destruct (decide (c = Call_package_info)) as [-> | Hc].
        + rewrite (package_info_settles self self' Hself').
          rewrite (bool_decide_eq_true_2 (_ ∈ _ :: _)) by constructor.
          by case_bool_decide.
        + case_bool_decide as Hcs.
          * by rewrite bool_decide_eq_true_2 by by constructor.
          * rewrite bool_decide_eq_false_2; [done |].
            intros [? | ?]%elem_of_cons; congruence.
      - rewrite method_step_cpp_info.
        destruct (decide (c = Call_package_info)); [right | exact Hself'].
        by apply package_info_settles. }
    apply Hgen. by left.
  - pose proof (package_info_settles self (run package_info self) (or_intror eq_refl)) as Hci.
    rewrite (package_info_run (run package_info self)).
    rewrite package_info_run in Hci at 1. cbn [cpp_info] in Hci. rewrite Hci.
    by rewrite package_info_run.
Qed.

(** X4. However often and in whatever order the methods are called, the
    layout of the recipe object is the CMake layout when [layout()] is
    among the calls, whatever it was before, and is untouched otherwise. *)
Theorem layout_settled (cs : list MethodName) (self : ConanFile) :
  folders (run_methods cs self)
  = if bool_decide (Call_layout ∈ cs) then CMakeLayout else folders self.
Proof.
  revert self. induction cs as [| c cs IH]; intros self; [done |].
  rewrite run_methods_cons, IH, method_step_folders.
  destruct (decide (c = Call_layout)) as [-> | Hc].
  - rewrite (bool_decide_eq_true_2 (_ ∈ _ :: _)) by constructor.
    by case_bool_decide.
  - case_bool_decide as Hcs.
    + by rewrite bool_decide_eq_true_2 by by constructor.
    + rewrite bool_decide_eq_false_2; [done |].
      intros [? | ?]%elem_of_cons; congruence.
Qed.

(** ** The order of the CMake calls *)

(** Putting the calls of one more method in front of a log keeps it
    ordered: no test or build at its head, a test only directly after a
    build, a build only directly after a configure. *)
Lemma ordered_calls_invoked (o : Options) (c : MethodName) (l : list CMakeCall) :
  l !! 0 ≠ Some CMakeTest → l !! 0 ≠ Some CMakeBuild →
  (∀ i, l !! S i = Some CMakeTest → l !! i = Some CMakeBuild) →
  (∀ i, l !! S i = Some CMakeBuild → l !! i = Some CMakeConfigure) →
  (invoked o c ++ l) !! 0 ≠ Some CMakeTest
  ∧ (invoked o c ++ l) !! 0 ≠ Some CMakeBuild
  ∧ (∀ i, (invoked o c ++ l) !! S i = Some CMakeTest
          → (invoked o c ++ l) !! i = Some CMakeBuild)
  ∧ (∀ i, (invoked o c ++ l) !! S i = Some CMakeBuild
          → (invoked o c ++ l) !! i = Some CMakeConfigure).
Proof.
  intros Ht Hb Htest Hbuild.
  destruct c; cbn [invoked app]; try done.
  destruct (build_tests o); cbn [app].
  - repeat split; try done.
    + intros [| [| [| i]]] Hi; cbn in *; try done. by apply Htest.
    + intros [| [| [| i]]] Hi; cbn in *; try done. by apply Hbuild.
  - repeat split; try done.
    + intros [| [| i]] Hi; cbn in *; try done. by apply Htest.
    + intros [| [| i]] Hi; cbn in *; try done. by apply Hbuild.
Qed.

Lemma ordered_calls_join (o : Options) (cs : list MethodName) :
  mjoin (invoked o <$> cs) !! 0 ≠ Some CMakeTest
  ∧ mjoin (invoked o <$> cs) !! 0 ≠ Some CMakeBuild
  ∧ (∀ i, mjoin (invoked o <$> cs) !! S i = Some CMakeTest
          → mjoin (invoked o <$> cs) !! i = Some CMakeBuild)
  ∧ (∀ i, mjoin (invoked o <$> cs) !! S i = Some CMakeBuild
          → mjoin (invoked o <$> cs) !! i = Some CMakeConfigure).
Proof.
  induction cs as [| c cs (Ht & Hb & Htest & Hbuild)].
  - cbn. repeat split; try done; intros i Hi; by rewrite lookup_nil in Hi.
  - cbn [fmap list_fmap mjoin list_join]. by apply ordered_calls_invoked.
Qed.

(** X5. However often and in whatever order the methods are called, every
    [cmake.test()] among the CMake calls they make comes directly after a
    [cmake.build()], and every [cmake.build()] directly after a
    [cmake.configure()]: the tests never run on a tree that was not
    configured and built just before. *)
Theorem test_only_after_build (cs : list MethodName) (self : ConanFile) :
  (∀ i, new_cmake_calls self (run_methods cs self) !! i = Some CMakeTest
        → ∃ j, i = S j
               ∧ new_cmake_calls self (run_methods cs self) !! j = Some CMakeBuild)
  ∧ (∀ i, new_cmake_calls self (run_methods cs self) !! i = Some CMakeBuild
          → ∃ j, i = S j
                 ∧ new_cmake_calls self (run_methods cs self) !! j
                   = Some CMakeConfigure).
Proof.
  destruct (new_logs cs self) as (_ & -> & _).
  destruct (ordered_calls_join (Conan.options self) cs) as (Ht & Hb & Htest & Hbuild).
  split; intros [| i] Hi; try done; eauto.
Qed.

(** ** Agreement of the methods on an option *)

Lemma elem_of_declared (o : Options) (cs : list MethodName) (r : Requirement) :
  r ∈ mjoin (declared o <$> cs)
  ↔ r = yaml_cpp ∧ Call_requirements ∈ cs
    ∨ r = gtest ∧ build_tests o = true ∧ Call_build_requirements ∈ cs
    ∨ r = benchmark ∧ build_benchmarks o = true ∧ Call_build_requirements ∈ cs.
Proof.
  induction cs as [| c cs IH].
  - cbn. rewrite elem_of_nil. split; [done |].
    intros [[_ H] | [(_ & _ & H) | (_ & _ & H)]]; by apply elem_of_nil in H.
  - cbn [fmap list_fmap mjoin list_join]. rewrite elem_of_app, IH, !elem_of_cons.
    destruct c; cbn [declared];
      try (destruct (build_tests o), (build_benchmarks o); cbn [app]);
      rewrite ?list_elem_of_singleton, ?elem_of_cons, ?elem_of_nil;
      intuition (try congruence).
Qed.

Lemma elem_of_invoked_test (o : Options) (cs : list MethodName) :
  CMakeTest ∈ mjoin (invoked o <$> cs)
  ↔ build_tests o = true ∧ Call_build ∈ cs.
Proof.
  induction cs as [| c cs IH].
  - cbn. rewrite !elem_of_nil. intuition.
  - cbn [fmap list_fmap mjoin list_join]. rewrite elem_of_app, IH, !elem_of_cons.
    destruct c; cbn [invoked];
      try (destruct (build_tests o); cbn [app]);
      rewrite ?elem_of_cons, ?elem_of_nil;
      intuition (try congruence).
Qed.

Lemma elem_of_written (o : Options) (cs : list MethodName) (k : string) (v : value) :
  Some v ∈ (toolchain_variable k <$> mjoin (written o <$> cs))
  ↔ Call_generate ∈ cs ∧ assigned_variables o !! k = Some v.
Proof.
  induction cs as [| c cs IH].
  - cbn. rewrite !elem_of_nil. intuition.
  - cbn [fmap list_fmap mjoin list_join]. rewrite fmap_app, elem_of_app, IH, !elem_of_cons.
    destruct c; cbn [written fmap list_fmap toolchain_variable];
      rewrite ?elem_of_cons, ?elem_of_nil;
      intuition (try congruence).
Qed.

Lemma run_one (c : MethodName) (self : ConanFile) :
  run (method c) self = run_methods [c] self.
Proof. reflexivity. Qed.

Lemma assigned_variables_lookup (o : Options) :
  assigned_variables o !! "CGS_BUILD_TESTS" = Some (VBool (build_tests o))
  ∧ assigned_variables o !! "CGS_BUILD_BENCHMARKS" = Some (VBool (build_benchmarks o))
  ∧ assigned_variables o !! "CGS_BUILD_SERVICES" = Some (VBool (build_services o)).
Proof.
  unfold assigned_variables.
  split; [by do 2 rewrite lookup_insert_ne by done; rewrite lookup_insert_eq |].
  split; [by rewrite lookup_insert_ne by done; rewrite lookup_insert_eq |].
  by rewrite lookup_insert_eq.
Qed.

(** X6. On a recipe object whose [build_tests] option is false, no sequence
    of method calls ever runs [cmake.test()], ever declares the requirement
    [gtest/1.15.0], or ever writes a toolchain file in which
    [CGS_BUILD_TESTS] is true. *)
Theorem no_tests_when_disabled (cs : list MethodName) (self : ConanFile) :
  build_tests (Conan.options self) = false →
  (CMakeTest ∉ new_cmake_calls self (run_methods cs self))
  ∧ (gtest ∉ new_dependencies self (run_methods cs self))
  ∧ (Some (VBool true)
       ∉ (toolchain_variable "CGS_BUILD_TESTS"
            <$> new_generated self (run_methods cs self))).
Proof.
  intros Hoff. destruct (new_logs cs self) as (-> & -> & ->).
  rewrite elem_of_invoked_test, elem_of_declared, elem_of_written, Hoff.
  destruct (assigned_variables_lookup (Conan.options self)) as (-> & _ & _).
  rewrite Hoff. repeat split.
  - by intros [? _].
  - intros [[Hne _] | [(_ & ? & _) | (Hne & _)]]; done.
  - by intros [_ ?].
Qed.

(** With tests and nothing else switched off, the whole recipe runs
    without a test call, without [gtest] and with [CGS_BUILD_TESTS] false. *)
Lemma no_tests_whole_recipe :
  build_tests (Conan.options (blank (mkOptions false true true))) = false
  ∧ (CMakeTest
       ∉ new_cmake_calls (blank (mkOptions false true true))
           (run_methods [Call_requirements; Call_build_requirements; Call_layout;
                         Call_generate; Call_build; Call_package_info]
                        (blank (mkOptions false true true))))
  ∧ (gtest
       ∉ new_dependencies (blank (mkOptions false true true))
           (run_methods [Call_requirements; Call_build_requirements; Call_layout;
                         Call_generate; Call_build; Call_package_info]
                        (blank (mkOptions false true true))))
  ∧ (Some (VBool true)
       ∉ (toolchain_variable "CGS_BUILD_TESTS"
            <$> new_generated (blank (mkOptions false true true))
                  (run_methods [Call_requirements; Call_build_requirements; Call_layout;
                                Call_generate; Call_build; Call_package_info]
                               (blank (mkOptions false true true))))).
Proof.
  split; [reflexivity |].
  apply (no_tests_when_disabled
           [Call_requirements; Call_build_requirements; Call_layout;
            Call_generate; Call_build; Call_package_info]
           (blank (mkOptions false true true))).
  reflexivity.
Defined.

(** X7. The three methods that look at an option agree on it, whatever the
    option values: [build()] runs the tests exactly when
    [build_requirements()] declares [gtest/1.15.0], and that is exactly
    when [generate()] sets [CGS_BUILD_TESTS] to true;
    [build_requirements()] declares [benchmark/1.9.1] exactly when
    [generate()] sets [CGS_BUILD_BENCHMARKS] to true. *)
Theorem methods_agree_on_options (self : ConanFile) :
  (CMakeTest ∈ new_cmake_calls self (run build self)
   ↔ gtest ∈ new_dependencies self (run build_requirements self))
  ∧ (gtest ∈ new_dependencies self (run build_requirements self)
     ↔ Some (VBool true)
         ∈ (toolchain_variable "CGS_BUILD_TESTS"
              <$> new_generated self (run generate self)))
  ∧ (benchmark ∈ new_dependencies self (run build_requirements self)
     ↔ Some (VBool true)
         ∈ (toolchain_variable "CGS_BUILD_BENCHMARKS"
              <$> new_generated self (run generate self))).
Proof.
  change (run build self) with (run (method Call_build) self).
  change (run build_requirements self) with (run (method Call_build_requirements) self).
  change (run generate self) with (run (method Call_generate) self).
  rewrite !run_one.
  destruct (new_logs [Call_build] self) as (_ & -> & _).
  destruct (new_logs [Call_build_requirements] self) as (-> & _ & _).
  destruct (new_logs [Call_generate] self) as (_ & _ & ->).
  rewrite elem_of_invoked_test, !elem_of_declared, !elem_of_written.
  destruct (assigned_variables_lookup (Conan.options self)) as (-> & -> & _).
  rewrite !list_elem_of_singleton.
  destruct (build_tests (Conan.options self)), (build_benchmarks (Conan.options self));
    unfold gtest, benchmark, yaml_cpp; intuition (try congruence).
Qed.

(** ** The kinds of the declared requirements *)





(** ** The options each method reads *)

(** X9. Over one recipe object with two valuations of the options:
    [requirements()], [layout()] and [package_info()] leave the same
    outputs under both, so they read no option; [build()] leaves the same
    outputs exactly when the valuations agree on [build_tests];
    [build_requirements()] exactly when they agree on [build_tests] and
    [build_benchmarks]; [generate()] leaves the same generated files
    exactly when the valuations are equal, so the toolchain file tells the
    three option values apart. *)
Theorem options_read_by_methods (self : ConanFile) (o1 o2 : Options) :
  outputs (run requirements (with_options o1 self))
    = outputs (run requirements (with_options o2 self))
  ∧ outputs (run layout (with_options o1 self))
    = outputs (run layout (with_options o2 self))
  ∧ outputs (run package_info (with_options o1 self))
    = outputs (run package_info (with_options o2 self))
  ∧ (outputs (run build (with_options o1 self))
       = outputs (run build (with_options o2 self))
     ↔ build_tests o1 = build_tests o2)
  ∧ (outputs (run build_requirements (with_options o1 self))
       = outputs (run build_requirements (with_options o2 self))
     ↔ build_tests o1 = build_tests o2 ∧ build_benchmarks o1 = build_benchmarks o2)
  ∧ (generated (run generate (with_options o1 self))
       = generated (run generate (with_options o2 self))
     ↔ o1 = o2).
Proof.
  rewrite !requirements_run, !build_requirements_run, !build_run,
    !package_info_run, !layout_run, !generate_run.
  unfold outputs.
  cbn [with_options Conan.options dependencies folders generated cmake_calls cpp_info].
  do 3 (split; [done |]).
  split; [| split]; split.
  - intros Heq. apply (f_equal (λ t, t.1.2)) in Heq. cbn [fst snd] in Heq.
    do 2 apply app_inv_head in Heq.
    by destruct (build_tests o1), (build_tests o2).
  - by intros ->.
  - intros Heq. apply (f_equal (λ t, t.1.1.1.1)) in Heq. cbn [fst snd] in Heq.
    apply app_inv_head in Heq.
    by destruct (build_tests o1), (build_tests o2),
                (build_benchmarks o1), (build_benchmarks o2).
  - by intros [-> ->].
  - intros Heq. apply app_inv_head in Heq.
    assert (Hk : ∀ k : string,
      toolchain_variable k (ToolchainFile (assigned_variables o1))
      = toolchain_variable k (ToolchainFile (assigned_variables o2))).
    { intros k.
      apply (f_equal (λ gs, toolchain_variable k <$> gs !! 1)) in Heq. cbn in Heq.
      unfold assigned_variables. cbn [toolchain_variable]. congruence. }
    cbn [toolchain_variable] in Hk.
    destruct (assigned_variables_lookup o1) as (Ht1 & Hb1 & Hs1).
    destruct (assigned_variables_lookup o2) as (Ht2 & Hb2 & Hs2).
    pose proof (Hk "CGS_BUILD_TESTS") as Ht.
    pose proof (Hk "CGS_BUILD_BENCHMARKS") as Hb.
    pose proof (Hk "CGS_BUILD_SERVICES") as Hs.
    rewrite Ht1, Ht2 in Ht. rewrite Hb1, Hb2 in Hb. rewrite Hs1, Hs2 in Hs.
    destruct o1, o2. cbn in *. congruence.
  - by intros ->.
Qed.
